(** * Connection lifecycle of src/index.js (mongo-centralized)

    Two embeddings of the module:
    - [Seq]: the module-level state ([client], [clientPromise]) threaded
      through a state-and-exception monad; every exported function is run to
      completion before the next one starts (no interleaving at [await]s).
      The MongoDB driver, the timers and the HTTP server are external: their
      answers come from a [Backend] record and their calls are recorded in a
      trace.
    - [Conc]: the same [connectToDatabase] and [closeDatabase] cut at every
      [await] into tasks, scheduled by an interleaving step function, for
      the properties about concurrent callers. *)

From Stdlib Require Import List String Arith Lia Bool.
Import ListNotations.

Module Seq.

(** JavaScript values that occur in the client options. *)
Inductive JSVal :=
| JUndefined
| JNull
| JBool (b : bool)
| JNum (n : nat)
| JStr (s : string).

(** A plain JS object, as its own enumerable properties in order. *)
Definition Options := list (string * JSVal).

Fixpoint obj_get (k : string) (o : Options) : option JSVal :=
  match o with
  | [] => None
  | (k', v) :: o' => if String.eqb k k' then Some v else obj_get k o'
  end.

(** Defining a property in an object literal: an existing key keeps its
    position and takes the new value, a new key is appended. *)
Fixpoint obj_define (k : string) (v : JSVal) (o : Options) : Options :=
  match o with
  | [] => [(k, v)]
  | (k', v') :: o' =>
      if String.eqb k k' then (k, v) :: o' else (k', v') :: obj_define k v o'
  end.

(** Line 5. *)
Definition defaultOptions : Options :=
  [("useNewUrlParser"%string, JBool true);
   ("useUnifiedTopology"%string, JBool true);
   ("maxPoolSize"%string, JNum 10)].

(** The constants of lines 10-11. *)
Definition MAX_RETRIES_src : nat := 5.
Definition RETRY_DELAY_src : nat := 5000.

(** Answers of the external collaborators: whether [client.connect()] of the
    [c]-th [MongoClient] fulfils, whether its [client.close()] fulfils, and the
    [error] property of [client.db(d).collection(n)]. *)
Record Backend := mkBackend {
  connect_ok : nat -> bool;
  close_ok : nat -> bool;
  coll_error : string -> string -> option string
}.

(** Observable calls to the collaborators, in chronological order. *)
Inductive Event :=
| EvNewClient (c : nat) (url : string) (options : Options) (* new MongoClient(url, options) *)
| EvConnect (c : nat)                                      (* client.connect() *)
| EvDelay (ms : nat)                                       (* setTimeout(resolve, ms) *)
| EvClientClose (c : nat).                                 (* client.close() *)

Inductive Err :=
| ErrConnect (c : nat)     (* rejection of client.connect() *)
| ErrFailedToConnect       (* new Error('Failed to connect to database after several attempts.') *)
| ErrClose (c : nat)       (* rejection of client.close() *)
| ErrLookup (e : string)   (* the thrown collection.error *)
| ErrNullClient            (* TypeError: calling .db on a null client *)
| ErrOutOfFuel.            (* never raised, see [connectToDatabase_no_fuel_error] *)

Inductive Outcome (A : Type) :=
| Ok (a : A)
| Throw (e : Err).
Arguments Ok {A} a.
Arguments Throw {A} e.

(** The promise returned by [client.connect()] of client [c]; in a run
    without interleaving it is settled by the time anyone reads it. *)
Inductive Promise := ConnectPromise (c : nat) (fulfilled : bool).

(** Lines 7-8, plus the collaborators' bookkeeping. *)
Record State := mkState {
  client : option nat;
  clientPromise : option Promise;
  next_client : nat;
  trace : list Event
}.

Definition M (A : Type) := State -> Outcome A * State.

Definition ret {A} (a : A) : M A := fun s => (Ok a, s).
Definition throw {A} (e : Err) : M A := fun s => (Throw e, s).
Definition bind {A B} (m : M A) (k : A -> M B) : M B :=
  fun s => match m s with
           | (Ok a, s') => k a s'
           | (Throw e, s') => (Throw e, s')
           end.
Definition try_catch {A} (m : M A) (h : Err -> M A) : M A :=
  fun s => match m s with
           | (Throw e, s') => h e s'
           | r => r
           end.

Notation "x <- m ;; k" := (bind m (fun x => k))
  (at level 61, m at next level, right associativity).
Notation "m ;; k" := (bind m (fun _ => k))
  (at level 61, right associativity).

Definition get_client : M (option nat) := fun s => (Ok (client s), s).
Definition get_clientPromise : M (option Promise) :=
  fun s => (Ok (clientPromise s), s).
Definition set_client (c : option nat) : M unit :=
  fun s => (Ok tt, mkState c (clientPromise s) (next_client s) (trace s)).
Definition set_clientPromise (p : option Promise) : M unit :=
  fun s => (Ok tt, mkState (client s) p (next_client s) (trace s)).
Definition emit (ev : Event) : M unit :=
  fun s => (Ok tt, mkState (client s) (clientPromise s) (next_client s)
                           (trace s ++ [ev])).

Section Code.

Variable MAX_RETRIES : nat.
Variable RETRY_DELAY : nat.
Variable B : Backend.

(** [new MongoClient(url, options)]: a fresh client object. *)
Definition new_MongoClient (url : string) (options : Options) : M nat :=
  fun s => let c := next_client s in
           (Ok c, mkState (client s) (clientPromise s) (S c)
                          (trace s ++ [EvNewClient c url options])).

(** [client.connect()]. *)
Definition client_connect (c : nat) : M Promise :=
  emit (EvConnect c) ;; ret (ConnectPromise c (connect_ok B c)).

(** [await p]: a connect promise fulfils with the client itself. *)
Definition await_promise (p : Promise) : M nat :=
  match p with
  | ConnectPromise c true => ret c
  | ConnectPromise c false => throw (ErrConnect c)
  end.

(** [await new Promise(resolve => setTimeout(resolve, ms))]. *)
Definition sleep (ms : nat) : M unit := emit (EvDelay ms).

(** [await client.close()]. *)
Definition client_close (c : nat) : M unit :=
  emit (EvClientClose c) ;;
  if close_ok B c then ret tt else throw (ErrClose c).

(** Lines 14-36. [fuel] bounds the recursion of line 29; [connectToDatabase]
    gives enough of it. The [return clientPromise] of line 35 sits inside the
    [try] here: reading a variable cannot throw. *)
Fixpoint connectToDatabase_fuel (fuel : nat) (url : string) (options : Options)
    (retries : nat) : M (option Promise) :=
  match fuel with
  | O => throw ErrOutOfFuel
  | S fuel' =>
      cp <- get_clientPromise ;;
      match cp with
      | Some _ => get_clientPromise
      | None =>
          c <- new_MongoClient url options ;;
          set_client (Some c) ;;
          try_catch
            (p <- client_connect c ;;
             set_clientPromise (Some p) ;;
             await_promise p ;;
             get_clientPromise)
            (fun error =>
               set_clientPromise None ;;
               if retries <? MAX_RETRIES then
                 let retries := S retries in
                 sleep RETRY_DELAY ;;
                 connectToDatabase_fuel fuel' url options retries
               else throw ErrFailedToConnect)
      end
  end.

Definition connectToDatabase (url : string) (options : Options) (retries : nat)
    : M (option Promise) :=
  connectToDatabase_fuel (S (MAX_RETRIES - retries)) url options retries.

(** What [await connectToDatabase(...)] yields: the async function adopts
    the returned [clientPromise] ([null] stays [null]). *)
Definition await_value (v : option Promise) : M (option nat) :=
  match v with
  | None => ret None
  | Some p => c <- await_promise p ;; ret (Some c)
  end.

Record Db := mkDb { db_client : nat; db_name : string }.
Record Collection := mkCollection {
  coll_db : Db;
  coll_name : string;
  error : option string
}.

(** [client.db(dbName)] and [db.collection(name)]. *)
Definition client_db (c : nat) (dbName : string) : Db := mkDb c dbName.
Definition db_collection (db : Db) (name : string) : Collection :=
  mkCollection db name (coll_error B (db_name db) name).

(** Lines 39-42. *)
Definition getDatabase (url : string) (options : Options) (dbName : string)
    : M Db :=
  v <- connectToDatabase url options 0 ;;
  client <- await_value v ;;
  match client with
  | None => throw ErrNullClient
  | Some c => ret (client_db c dbName)
  end.

(** Lines 45-52 (the console.log is left out). *)
Definition getCollection (url : string) (options : Options) (dbName : string)
    (collectionName : string) : M Collection :=
  v <- connectToDatabase url options 0 ;;
  client <- await_value v ;;
  match client with
  | None => throw ErrNullClient
  | Some c =>
      let db := client_db c dbName in
      let collection := db_collection db collectionName in
      match error collection with
      | Some e => throw (ErrLookup e)
      | None => ret collection
      end
  end.

(** Lines 55-58. *)
Definition initializeDatabase (url : string) (options : Options) : M unit :=
  v <- connectToDatabase url options 0 ;;
  await_value v ;;
  ret tt.

(** Lines 61-68. *)
Definition closeDatabase : M unit :=
  cl <- get_client ;;
  match cl with
  | None => ret tt
  | Some c =>
      client_close c ;;
      set_client None ;;
      set_clientPromise None ;;
      ret tt
  end.

(** Lines 92-100: [{ ...defaultOptions, maxPoolSize }]. An omitted argument
    is [undefined]. *)
Definition init_options (maxPoolSize : JSVal) : Options :=
  obj_define "maxPoolSize" maxPoolSize defaultOptions.

Record Api := mkApi {
  api_initializeDatabase : M unit;
  api_getDatabase : string -> M Db;
  api_getCollection : string -> string -> M Collection
}.

Definition init (urlConnection : string) (maxPoolSize : JSVal) : Api :=
  let options := init_options maxPoolSize in
  mkApi (initializeDatabase urlConnection options)
        (fun dbName => getDatabase urlConnection options dbName)
        (fun dbName collectionName =>
           getCollection urlConnection options dbName collectionName).

(** The exported operations, each run to completion. *)
Inductive Op :=
| OpConnect (url : string) (options : Options)
| OpGetDatabase (url : string) (options : Options) (dbName : string)
| OpGetCollection (url : string) (options : Options) (dbName coll : string)
| OpInitialize (url : string) (options : Options)
| OpClose.

Definition op_state (o : Op) (s : State) : State :=
  match o with
  | OpConnect url options => snd (connectToDatabase url options 0 s)
  | OpGetDatabase url options d => snd (getDatabase url options d s)
  | OpGetCollection url options d n => snd (getCollection url options d n s)
  | OpInitialize url options => snd (initializeDatabase url options s)
  | OpClose => snd (closeDatabase s)
  end.

Fixpoint run_ops (os : list Op) (s : State) : State :=
  match os with
  | [] => s
  | o :: os' => run_ops os' (op_state o s)
  end.

(** Successive calls [await connectToDatabase(url, options)]. *)
Fixpoint await_connects (calls : list (string * Options)) : M (list (option nat)) :=
  match calls with
  | [] => ret []
  | (url, options) :: calls' =>
      v <- connectToDatabase url options 0 ;;
      c <- await_value v ;;
      cs <- await_connects calls' ;;
      ret (c :: cs)
  end.

End Code.

Definition init_state : State := mkState None None 0 [].

(** The collaborators' calls of a run where every connect attempt fails:
    one attempt, then [n] times a delay and another attempt. *)
Fixpoint failing_attempts (RETRY_DELAY : nat) (url : string) (options : Options)
    (c n : nat) : list Event :=
  EvNewClient c url options :: EvConnect c ::
  match n with
  | O => []
  | S n' => EvDelay RETRY_DELAY :: failing_attempts RETRY_DELAY url options (S c) n'
  end.

Definition is_connect (ev : Event) : bool :=
  match ev with EvConnect _ => true | _ => false end.

Definition count_connects (evs : list Event) : nat :=
  List.length (filter is_connect evs).

Fixpoint total_delay (evs : list Event) : nat :=
  match evs with
  | [] => 0
  | EvDelay ms :: evs' => ms + total_delay evs'
  | _ :: evs' => total_delay evs'
  end.

(** ** Process signals and the HTTP server (lines 71-82) *)

Inductive Signal := SIGTERM | SIGINT.

(** The async arrow passed to [server.close] on line 73. *)
Inductive Callback := CloseDbThenExit.

Record Host := mkHost {
  db : State;
  listeners : list (Signal * nat);        (* process.on(sig, shutdown) of server [n] *)
  server_close_calls : list nat;          (* server.close(cb) on server [n] *)
  close_callbacks : list (nat * Callback); (* callbacks waiting for server 'close' *)
  exit_code : option nat                  (* process.exit(code) happened *)
}.

Definition signal_eqb (a b : Signal) : bool :=
  match a, b with
  | SIGTERM, SIGTERM | SIGINT, SIGINT => true
  | _, _ => false
  end.

(** Lines 80-81. *)
Definition setupGracefulShutdown (server : nat) (h : Host) : Host :=
  mkHost (db h) (listeners h ++ [(SIGTERM, server); (SIGINT, server)])
         (server_close_calls h) (close_callbacks h) (exit_code h).

(** Lines 72-78: [server.close(cb)] records the call and registers [cb]. *)
Definition shutdown (server : nat) (h : Host) : Host :=
  mkHost (db h) (listeners h) (server_close_calls h ++ [server])
         (close_callbacks h ++ [(server, CloseDbThenExit)]) (exit_code h).

(** Delivery of a signal runs, in order, every listener registered for it;
    an exited process receives nothing. *)
Definition deliver (sig : Signal) (h : Host) : Host :=
  match exit_code h with
  | Some _ => h
  | None =>
      fold_left (fun h' l => if signal_eqb (fst l) sig then shutdown (snd l) h' else h')
                (listeners h) h
  end.

Fixpoint deliver_all (sigs : list Signal) (h : Host) : Host :=
  match sigs with
  | [] => h
  | sig :: sigs' => deliver_all sigs' (deliver sig h)
  end.

(** Running one callback of line 73 to completion: [await closeDatabase()],
    then [process.exit(0)]; a rejected [closeDatabase] skips [process.exit(0)]
    and rejects the async callback, an unhandled rejection that ends the
    process with exit code 1 (Node >= 15). *)
Definition run_callback (B : Backend) (cb : Callback) (h : Host) : Host :=
  match cb with
  | CloseDbThenExit =>
      match exit_code h with
      | Some _ => h
      | None =>
          match closeDatabase B (db h) with
          | (Ok _, s') => mkHost s' (listeners h) (server_close_calls h)
                                 (close_callbacks h) (Some 0)
          | (Throw _, s') => mkHost s' (listeners h) (server_close_calls h)
                                    (close_callbacks h) (Some 1)
          end
      end
  end.

Definition init_host : Host := mkHost init_state [] [] [] None.

(** Concrete collaborators used to run the code on examples. *)
Definition B_down : Backend := mkBackend (fun _ => false) (fun _ => true) (fun _ _ => None).
Definition B_up : Backend := mkBackend (fun _ => true) (fun _ => true) (fun _ _ => None).
Definition B_close_fails : Backend :=
  mkBackend (fun _ => true) (fun _ => false) (fun _ _ => None).
Definition B_missing : Backend :=
  mkBackend (fun _ => true) (fun _ => true)
    (fun _ n => if String.eqb n "missing" then Some "ns not found"%string else None).

Definition B_flaky : Backend :=
  mkBackend (fun c => 2 <=? c) (fun _ => true) (fun _ _ => None).

Definition url0 : string := "mongodb://localhost:27017".
Definition url1 : string := "mongodb://replica.example:27017".

End Seq.

(** ** Interleaved calls

    Each call of [connectToDatabase] or [closeDatabase] is a task; one step
    of a task runs the code from one [await] to the next, atomically, as the
    JavaScript event loop does. The driver settles connect promises at
    moments of its own choosing. *)
Module Conc.

Inductive Err :=
| ErrConnect (c : nat)   (* rejection of client.connect() of client c *)
| ErrFailedToConnect     (* 'Failed to connect to database after several attempts.' *)
| ErrClose (c : nat).    (* rejection of client.close() *)

(** What a finished call resolved or rejected with. *)
Inductive Result :=
| RClient (c : nat)      (* the fulfilled value of client c's connect promise *)
| RNull                  (* [return clientPromise] read [null] *)
| RUndefined             (* closeDatabase() fulfilled *)
| RError (e : Err).

Inductive Task :=
| TCall (retries : nat)             (* entry of connectToDatabase(url, options, retries) *)
| TAwaitConnect (retries : nat) (p : nat) (* at [await clientPromise], line 21 *)
| TSleep (retries : nat)            (* at the [await] of the timer, line 28 *)
| TAdopt (p : option nat)           (* returned [clientPromise] (line 35) being adopted *)
| TClose                            (* entry of closeDatabase() *)
| TAwaitClose (c : nat)             (* at [await client.close()], line 63 *)
| TDone (r : Result).

(** Connect promises are named by their client, as each client connects once. *)
Record World := mkWorld {
  client : option nat;
  clientPromise : option nat;
  settled : list (nat * bool);   (* connect promises settled so far *)
  next_client : nat;
  connects : list nat;           (* client.connect() calls, in order *)
  tasks : list Task
}.

Fixpoint settled_of (p : nat) (l : list (nat * bool)) : option bool :=
  match l with
  | [] => None
  | (q, b) :: l' => if Nat.eqb p q then Some b else settled_of p l'
  end.

Fixpoint replace_nth {A} (i : nat) (x : A) (l : list A) : list A :=
  match l, i with
  | [], _ => []
  | _ :: l', O => x :: l'
  | y :: l', S i' => y :: replace_nth i' x l'
  end.

Section Steps.

Variable MAX_RETRIES : nat.

(** One synchronous segment of a task; [close_ok] is the outcome of the
    [client.close()] being awaited, when there is one. [None]: the task is
    blocked or finished. The task list of the result is left to [step]. *)
Definition run_task (t : Task) (close_ok : bool) (w : World) : option (Task * World) :=
  match t with
  | TCall retries =>
      match clientPromise w with
      | Some p => Some (TAdopt (Some p), w)
      | None =>
          let c := next_client w in
          Some (TAwaitConnect retries c,
                mkWorld (Some c) (Some c) (settled w) (S c) (connects w ++ [c]) (tasks w))
      end
  | TAwaitConnect retries p =>
      match settled_of p (settled w) with
      | None => None
      | Some true => Some (TAdopt (clientPromise w), w)
      | Some false =>
          let w' := mkWorld (client w) None (settled w) (next_client w) (connects w)
                            (tasks w) in
          if retries <? MAX_RETRIES then Some (TSleep (S retries), w')
          else Some (TDone (RError ErrFailedToConnect), w')
      end
  | TSleep retries => Some (TCall retries, w)
  | TAdopt None => Some (TDone RNull, w)
  | TAdopt (Some p) =>
      match settled_of p (settled w) with
      | None => None
      | Some true => Some (TDone (RClient p), w)
      | Some false => Some (TDone (RError (ErrConnect p)), w)
      end
  | TClose =>
      match client w with
      | None => Some (TDone RUndefined, w)
      | Some c => Some (TAwaitClose c, w)
      end
  | TAwaitClose c =>
      if close_ok
      then Some (TDone RUndefined,
                 mkWorld None None (settled w) (next_client w) (connects w) (tasks w))
      else Some (TDone (RError (ErrClose c)), w)
  | TDone _ => None
  end.

Inductive Choice :=
| SpawnConnect                    (* a caller starts connectToDatabase(url, options) *)
| SpawnClose                      (* a caller starts closeDatabase() *)
| Settle (c : nat) (ok : bool)    (* the driver settles client c's connect promise *)
| Run (i : nat) (close_ok : bool). (* task i runs its next segment *)

Definition with_tasks (w : World) (ts : list Task) : World :=
  mkWorld (client w) (clientPromise w) (settled w) (next_client w) (connects w) ts.

Definition step (ch : Choice) (w : World) : option World :=
  match ch with
  | SpawnConnect => Some (with_tasks w (tasks w ++ [TCall 0]))
  | SpawnClose => Some (with_tasks w (tasks w ++ [TClose]))
  | Settle c ok =>
      if (c <? next_client w) && match settled_of c (settled w) with None => true | Some _ => false end
      then Some (mkWorld (client w) (clientPromise w) (settled w ++ [(c, ok)])
                         (next_client w) (connects w) (tasks w))
      else None
  | Run i close_ok =>
      match nth_error (tasks w) i with
      | None => None
      | Some t =>
          match run_task t close_ok w with
          | None => None
          | Some (t', w') => Some (with_tasks w' (replace_nth i t' (tasks w)))
          end
      end
  end.

Fixpoint run (chs : list Choice) (w : World) : option World :=
  match chs with
  | [] => Some w
  | ch :: chs' => match step ch w with
                  | None => None
                  | Some w' => run chs' w'
                  end
  end.

End Steps.

Definition init_world : World := mkWorld None None [] 0 [] [].

(** Two callers start before any connection exists; the first attempt is
    rejected, the first caller retries and its second attempt fulfils. *)
Definition two_callers_first_attempt_fails : list Choice :=
  [SpawnConnect; SpawnConnect;
   Run 0 true;          (* caller 0: client 0, client.connect() *)
   Run 1 true;          (* caller 1: finds clientPromise, returns it *)
   Settle 0 false;      (* client 0's connect rejects *)
   Run 0 true;          (* caller 0: catch, clientPromise = null, waits *)
   Run 1 true;          (* caller 1: the adopted promise rejected *)
   Run 0 true;          (* caller 0: timer fires, recursive call *)
   Run 0 true;          (* caller 0: client 1, client.connect() *)
   Settle 1 true;       (* client 1's connect fulfils *)
   Run 0 true;          (* caller 0: returns clientPromise *)
   Run 0 true].         (* caller 0: adopted promise fulfilled *)

(** Two callers start; the first has started client 0's connect. *)
Definition two_callers_pending : list Choice := [SpawnConnect; SpawnConnect; Run 0 true].

(** The connect promise a task is suspended on at line 21, if any. *)
Definition awaiting (t : Task) : option nat :=
  match t with TAwaitConnect _ p => Some p | _ => None end.

Definition is_awaiting (t : Task) : bool :=
  match awaiting t with Some _ => true | None => false end.

Definition is_close_task (t : Task) : bool :=
  match t with TClose | TAwaitClose _ => true | _ => false end.

Definition count_awaiting (ts : list Task) : nat :=
  List.length (filter is_awaiting ts).

(** Invariant of interleavings without [closeDatabase]: every unsettled
    connect promise is the current [clientPromise], the task that created it
    is the only one suspended at line 21, and fresh client numbers have no
    settled promise. *)
Definition conn_inv (w : World) : Prop :=
  (forall c, c < next_client w -> settled_of c (settled w) = None ->
             clientPromise w = Some c) /\
  (forall t p, In t (tasks w) -> awaiting t = Some p -> clientPromise w = Some p) /\
  count_awaiting (tasks w) <= 1 /\
  (forall c, next_client w <= c -> settled_of c (settled w) = None) /\
  Forall (fun t => is_close_task t = false) (tasks w).

(** Invariant of all interleavings, [closeDatabase] included. *)
Definition world_inv (w : World) : Prop :=
  clientPromise w = None \/ clientPromise w = client w.


(** The interleaving of [two_callers_first_attempt_fails], then a
    closeDatabase() call that runs to completion. *)
Definition connect_then_close : list Choice :=
  two_callers_first_attempt_fails ++ [SpawnClose; Run 2 true; Run 2 true].

End Conc.

Module SeqFacts.
Import Seq.

(** ** Reasoning about runs *)

#[local] Arguments Nat.ltb : simpl never.

Ltac munfold :=
  cbn [connectToDatabase_fuel] in *;
  unfold connectToDatabase, bind, ret, throw, try_catch, get_client,
    get_clientPromise, set_client, set_clientPromise, emit, new_MongoClient,
    client_connect, await_promise, sleep, client_close in *; cbn in *.

(** The invariant of the module state between two operations: a set
    [clientPromise] is the fulfilled connect promise of the current [client]. *)
Definition state_inv (s : State) : Prop :=
  clientPromise s = None \/
  exists c, client s = Some c /\ clientPromise s = Some (ConnectPromise c true).

Section Runs.

Variable MAX_RETRIES : nat.
Variable RETRY_DELAY : nat.
Variable B : Backend.

Lemma connect_fuel_memo (fuel : nat) url options retries s p :
  clientPromise s = Some p ->
  connectToDatabase_fuel MAX_RETRIES RETRY_DELAY B (S fuel) url options retries s
  = (Ok (Some p), s).
Proof. intros Hp. munfold. rewrite Hp. cbn. rewrite Hp. reflexivity. Qed.

Lemma connect_fuel_failing url options :
  (forall c, connect_ok B c = false) ->
  forall fuel retries s,
  clientPromise s = None ->
  MAX_RETRIES - retries < fuel ->
  connectToDatabase_fuel MAX_RETRIES RETRY_DELAY B fuel url options retries s
  = (Throw ErrFailedToConnect,
     mkState (Some (next_client s + (MAX_RETRIES - retries))) None
             (S (next_client s + (MAX_RETRIES - retries)))
             (trace s ++ failing_attempts RETRY_DELAY url options (next_client s)
                                          (MAX_RETRIES - retries))).
Proof.
  intros Hfail fuel. induction fuel as [|fuel IH]; intros retries s Hs Hlt.
  - lia.
  - munfold. rewrite Hs, Hfail. cbn.
    destruct (retries <? MAX_RETRIES) eqn:Hr.
    + apply Nat.ltb_lt in Hr.
      rewrite IH by (cbn; first [reflexivity | lia]). cbn.
      replace (MAX_RETRIES - retries) with (S (MAX_RETRIES - S retries)) by lia.
      cbn. repeat rewrite <- app_assoc. cbn.
      replace (S (next_client s + S (MAX_RETRIES - S retries)))
        with (S (S (next_client s + (MAX_RETRIES - S retries)))) by lia.
      replace (next_client s + S (MAX_RETRIES - S retries))
        with (S (next_client s + (MAX_RETRIES - S retries))) by lia.
      reflexivity.
    + apply Nat.ltb_ge in Hr.
      replace (MAX_RETRIES - retries) with 0 by lia.
      rewrite Nat.add_0_r. cbn. repeat rewrite <- app_assoc. reflexivity.
Qed.

Lemma connect_fuel_returns_clientPromise fuel url options retries s v s' :
  connectToDatabase_fuel MAX_RETRIES RETRY_DELAY B fuel url options retries s
  = (Ok v, s') ->
  v = clientPromise s'.
Proof.
  revert retries s. induction fuel as [|fuel IH]; intros retries s H.
  - munfold. discriminate.
  - munfold. destruct (clientPromise s) as [p|] eqn:Hs.
    + inversion H; subst. reflexivity.
    + destruct (connect_ok B (next_client s)) eqn:Hc; cbn in H.
      * inversion H; subst. reflexivity.
      * destruct (retries <? MAX_RETRIES); [|discriminate].
        cbn in H. eapply IH. exact H.
Qed.

Lemma connect_fuel_inv fuel url options retries s :
  state_inv s ->
  state_inv (snd (connectToDatabase_fuel MAX_RETRIES RETRY_DELAY B fuel url
                                         options retries s)).
Proof.
  revert retries s. induction fuel as [|fuel IH]; intros retries s Hinv.
  - munfold. exact Hinv.
  - munfold. destruct (clientPromise s) as [p|] eqn:Hs; [exact Hinv|].
    destruct (connect_ok B (next_client s)) eqn:Hc; cbn.
    + right. exists (next_client s). split; reflexivity.
    + destruct (retries <? MAX_RETRIES); cbn.
      * apply IH. left. reflexivity.
      * left. reflexivity.
Qed.

Lemma await_value_state v s :
  snd (await_value v s) = s.
Proof.
  destruct v as [[c [|]]|]; reflexivity.
Qed.

Lemma bind_await_state {A} (m : M (option Promise)) (k : option nat -> M A) s :
  (forall c s', snd (k c s') = s') ->
  snd ((v <- m ;; c <- await_value v ;; k c) s) = snd (m s).
Proof.
  intros Hk. unfold bind.
  destruct (m s) as [[v|e] s']; [|reflexivity].
  destruct v as [[c [|]]|]; cbn; [apply Hk| reflexivity | apply Hk].
Qed.

Lemma op_state_inv o s :
  state_inv s -> state_inv (op_state MAX_RETRIES RETRY_DELAY B o s).
Proof.
  intros Hinv. destruct o as [url options|url options d|url options d n|url options|];
    cbn [op_state].
  - apply connect_fuel_inv. exact Hinv.
  - unfold getDatabase. rewrite bind_await_state.
    + apply connect_fuel_inv. exact Hinv.
    + intros [c|] s'; reflexivity.
  - unfold getCollection. rewrite bind_await_state.
    + apply connect_fuel_inv. exact Hinv.
    + intros [c|] s'; cbn; [destruct (coll_error B d n)|]; reflexivity.
  - unfold initializeDatabase.
    unfold bind at 1.
    destruct (connectToDatabase MAX_RETRIES RETRY_DELAY B url options 0 s)
      as [[v|e] s'] eqn:E.
    + cbn. unfold bind. destruct v as [[c [|]]|]; cbn;
        replace s' with (snd (connectToDatabase MAX_RETRIES RETRY_DELAY B url options 0 s))
        by (rewrite E; reflexivity); apply connect_fuel_inv; exact Hinv.
    + cbn. replace s' with (snd (connectToDatabase MAX_RETRIES RETRY_DELAY B url options 0 s))
        by (rewrite E; reflexivity). apply connect_fuel_inv. exact Hinv.
  - unfold closeDatabase. munfold.
    destruct (client s) as [c|] eqn:Hc; [|exact Hinv].
    destruct (close_ok B c); cbn.
    + left. reflexivity.
    + destruct Hinv as [H|[c' [H1 H2]]]; [left; exact H|right; exists c'; auto].
Qed.

Lemma run_ops_inv os s :
  state_inv s -> state_inv (run_ops MAX_RETRIES RETRY_DELAY B os s).
Proof.
  revert s. induction os as [|o os IH]; intros s Hinv; cbn; [exact Hinv|].
  apply IH. apply op_state_inv. exact Hinv.
Qed.

Lemma connectToDatabase_no_fuel_error fuel url options retries s :
  MAX_RETRIES - retries < fuel ->
  fst (connectToDatabase_fuel MAX_RETRIES RETRY_DELAY B fuel url options retries s)
  <> Throw ErrOutOfFuel.
Proof.
  revert retries s. induction fuel as [|fuel IH]; intros retries s Hlt; [lia|].
  munfold. destruct (clientPromise s); [discriminate|].
  destruct (connect_ok B (next_client s)); cbn; [discriminate|].
  destruct (retries <? MAX_RETRIES) eqn:Hr; cbn; [|discriminate].
  apply Nat.ltb_lt in Hr. apply IH. lia.
Qed.

Lemma connect_fuel_rejected url options : forall fuel retries s s',
  state_inv s ->
  connectToDatabase_fuel MAX_RETRIES RETRY_DELAY B fuel url options retries s
    = (Throw ErrFailedToConnect, s') ->
  client s' = Some (pred (next_client s')) /\ clientPromise s' = None.
Proof.
  intros fuel. induction fuel as [|fuel IH]; intros retries s s' Hinv H.
  - cbn in H. discriminate.
  - munfold. destruct Hinv as [Hs|[c [Hc Hp]]].
    + rewrite Hs in H. destruct (connect_ok B (next_client s)); cbn in H;
        [discriminate|].
      destruct (retries <? MAX_RETRIES); cbn in H.
      * refine (IH _ _ _ _ H). left. reflexivity.
      * injection H as <-. split; reflexivity.
    + rewrite Hp in H. cbn in H. rewrite Hp in H. discriminate.
Qed.

End Runs.

Lemma failing_attempts_connects RETRY_DELAY url options n : forall c,
  count_connects (failing_attempts RETRY_DELAY url options c n) = S n.
Proof.
  unfold count_connects.
  induction n as [|n IH]; intros c; cbn; [reflexivity|].
  rewrite IH. reflexivity.
Qed.

Lemma failing_attempts_delay RETRY_DELAY url options n : forall c,
  total_delay (failing_attempts RETRY_DELAY url options c n) = n * RETRY_DELAY.
Proof.
  induction n as [|n IH]; intros c; cbn; [reflexivity|].
  rewrite IH. reflexivity.
Qed.

Lemma connect_fuel_trace_grows MAX_RETRIES RETRY_DELAY B fuel url options retries s :
  exists evs,
    trace (snd (connectToDatabase_fuel MAX_RETRIES RETRY_DELAY B fuel url options
                                       retries s)) = trace s ++ evs.
Proof.
  revert retries s. induction fuel as [|fuel IH]; intros retries s.
  - exists []. munfold. rewrite app_nil_r. reflexivity.
  - munfold. destruct (clientPromise s) as [p|].
    + exists []. rewrite app_nil_r. reflexivity.
    + destruct (connect_ok B (next_client s)); cbn.
      * eexists. repeat rewrite <- app_assoc. reflexivity.
      * destruct (retries <? MAX_RETRIES); cbn.
        -- destruct (IH (S retries)
             (mkState (Some (next_client s)) None (S (next_client s))
                (((trace s ++ [EvNewClient (next_client s) url options]) ++
                  [EvConnect (next_client s)]) ++ [EvDelay RETRY_DELAY])))
             as [evs Hevs].
           rewrite Hevs. cbn. eexists. repeat rewrite <- app_assoc. reflexivity.
        -- eexists. repeat rewrite <- app_assoc. reflexivity.
Qed.

Lemma connect_fuel_first_event MAX_RETRIES RETRY_DELAY B fuel url options retries s :
  clientPromise s = None ->
  exists evs,
    trace (snd (connectToDatabase_fuel MAX_RETRIES RETRY_DELAY B (S fuel) url options
                                       retries s))
    = trace s ++ EvNewClient (next_client s) url options :: evs.
Proof.
  intros Hs. munfold. rewrite Hs.
  destruct (connect_ok B (next_client s)); cbn.
  - eexists. repeat rewrite <- app_assoc. reflexivity.
  - destruct (retries <? MAX_RETRIES); cbn.
    + match goal with
      | |- context [connectToDatabase_fuel _ _ _ fuel url options ?r ?s'] =>
          destruct (connect_fuel_trace_grows MAX_RETRIES RETRY_DELAY B fuel url options r s')
            as [evs Hevs]; rewrite Hevs
      end.
      cbn. eexists. repeat rewrite <- app_assoc. reflexivity.
    + eexists. repeat rewrite <- app_assoc. reflexivity.
Qed.

Lemma initializeDatabase_state MAX_RETRIES RETRY_DELAY B url options s :
  snd (initializeDatabase MAX_RETRIES RETRY_DELAY B url options s)
  = snd (connectToDatabase MAX_RETRIES RETRY_DELAY B url options 0 s).
Proof.
  unfold initializeDatabase, bind at 1.
  destruct (connectToDatabase MAX_RETRIES RETRY_DELAY B url options 0 s)
    as [[v|e] s']; [|reflexivity].
  unfold bind. destruct v as [[c [|]]|]; reflexivity.
Qed.

Lemma deliver_registered server sig h :
  listeners h = [(SIGTERM, server); (SIGINT, server)] ->
  exit_code h = None ->
  deliver sig h = shutdown server h.
Proof.
  intros Hl He. unfold deliver. rewrite He, Hl. destruct sig; reflexivity.
Qed.

Lemma deliver_all_registered server sigs : forall h,
  listeners h = [(SIGTERM, server); (SIGINT, server)] ->
  exit_code h = None ->
  db (deliver_all sigs h) = db h /\
  exit_code (deliver_all sigs h) = None /\
  server_close_calls (deliver_all sigs h)
    = server_close_calls h ++ repeat server (List.length sigs) /\
  close_callbacks (deliver_all sigs h)
    = close_callbacks h ++ repeat (server, CloseDbThenExit) (List.length sigs).
Proof.
  induction sigs as [|sig sigs IH]; intros h Hl He; cbn [deliver_all].
  - rewrite !app_nil_r. auto.
  - rewrite (deliver_registered server sig h Hl He).
    destruct (IH (shutdown server h) Hl He) as [H1 [H2 [H3 H4]]].
    rewrite H1, H2, H3, H4. cbn. rewrite <- !app_assoc. auto.
Qed.

(** ** Claims *)

(** C1: against a backend whose every [client.connect()] rejects, one
    top-level [connectToDatabase(url, options)] made while no promise is
    memoized, with [MAX_RETRIES = k], makes exactly [k+1] connect attempts,
    waits [RETRY_DELAY] between each two consecutive attempts ([k] waits,
    [k * RETRY_DELAY] in total) and then rejects with
    'Failed to connect to database after several attempts.' *)
Theorem connect_retry_bound (k RETRY_DELAY : nat) (B : Backend) url options s0 :
  (forall c, connect_ok B c = false) ->
  clientPromise s0 = None ->
  fst (connectToDatabase k RETRY_DELAY B url options 0 s0) = Throw ErrFailedToConnect /\
  trace (snd (connectToDatabase k RETRY_DELAY B url options 0 s0))
    = trace s0 ++ failing_attempts RETRY_DELAY url options (next_client s0) k /\
  count_connects (failing_attempts RETRY_DELAY url options (next_client s0) k) = S k /\
  total_delay (failing_attempts RETRY_DELAY url options (next_client s0) k)
    = k * RETRY_DELAY.
Proof.
  intros Hfail Hs. unfold connectToDatabase.
  rewrite (connect_fuel_failing k RETRY_DELAY B url options Hfail) by (auto; lia).
  rewrite Nat.sub_0_r. cbn.
  split; [reflexivity|]. split; [reflexivity|].
  split; [apply failing_attempts_connects | apply failing_attempts_delay].
Qed.

Lemma connect_retry_bound_witness :
  ((forall c, connect_ok B_down c = false) /\ clientPromise init_state = None) /\
  (fst (connectToDatabase MAX_RETRIES_src RETRY_DELAY_src B_down url0 defaultOptions 0
          init_state) = Throw ErrFailedToConnect /\
   trace (snd (connectToDatabase MAX_RETRIES_src RETRY_DELAY_src B_down url0
                 defaultOptions 0 init_state))
     = trace init_state ++ failing_attempts RETRY_DELAY_src url0 defaultOptions
                             (next_client init_state) MAX_RETRIES_src /\
   count_connects (failing_attempts RETRY_DELAY_src url0 defaultOptions
                     (next_client init_state) MAX_RETRIES_src) = S MAX_RETRIES_src /\
   total_delay (failing_attempts RETRY_DELAY_src url0 defaultOptions
                  (next_client init_state) MAX_RETRIES_src)
     = MAX_RETRIES_src * RETRY_DELAY_src).
Proof.
  split.
  - split; [intros c; reflexivity | reflexivity].
  - apply connect_retry_bound; [intros c; reflexivity | reflexivity].
Defined.

(** C2: once an [await connectToDatabase(url, options)] has produced a
    client [c], every later call, with any url and options, yields the same
    [c] and leaves the state, hence the trace of connect attempts and
    delays, untouched; [getDatabase] likewise answers from [c]. *)
Theorem connect_memoized (MAX_RETRIES RETRY_DELAY : nat) (B : Backend) url options
    s0 s1 c :
  (v <- connectToDatabase MAX_RETRIES RETRY_DELAY B url options 0 ;; await_value v) s0
    = (Ok (Some c), s1) ->
  forall calls,
    await_connects MAX_RETRIES RETRY_DELAY B calls s1
      = (Ok (repeat (Some c) (List.length calls)), s1) /\
    (forall url' options' dbName,
       getDatabase MAX_RETRIES RETRY_DELAY B url' options' dbName s1
       = (Ok (mkDb c dbName), s1)).
Proof.
  intros H.
  assert (Hp : clientPromise s1 = Some (ConnectPromise c true)).
  { unfold bind in H.
    destruct (connectToDatabase MAX_RETRIES RETRY_DELAY B url options 0 s0)
      as [[v|e] s'] eqn:E; [|discriminate].
    apply connect_fuel_returns_clientPromise in E. subst v.
    destruct (clientPromise s') as [[c' [|]]|] eqn:Hs'; cbn in H;
      inversion H; subst; assumption. }
  intros calls. split.
  - induction calls as [|[u o] calls IH]; [reflexivity|].
    cbn [await_connects]. unfold bind at 1, connectToDatabase.
    rewrite (connect_fuel_memo MAX_RETRIES RETRY_DELAY B _ _ _ _ _ _ Hp).
    cbn. unfold bind. rewrite IH. reflexivity.
  - intros url' options' dbName. unfold getDatabase, bind at 1, connectToDatabase.
    rewrite (connect_fuel_memo MAX_RETRIES RETRY_DELAY B _ _ _ _ _ _ Hp).
    reflexivity.
Qed.

Lemma connect_memoized_witness :
  (v <- connectToDatabase MAX_RETRIES_src RETRY_DELAY_src B_up url0 defaultOptions 0 ;;
   await_value v) init_state
    = (Ok (Some 0), mkState (Some 0) (Some (ConnectPromise 0 true)) 1
                            [EvNewClient 0 url0 defaultOptions; EvConnect 0]) /\
  (forall calls,
    await_connects MAX_RETRIES_src RETRY_DELAY_src B_up calls
      (mkState (Some 0) (Some (ConnectPromise 0 true)) 1
               [EvNewClient 0 url0 defaultOptions; EvConnect 0])
      = (Ok (repeat (Some 0) (List.length calls)),
         mkState (Some 0) (Some (ConnectPromise 0 true)) 1
                 [EvNewClient 0 url0 defaultOptions; EvConnect 0]) /\
    (forall url' options' dbName,
       getDatabase MAX_RETRIES_src RETRY_DELAY_src B_up url' options' dbName
         (mkState (Some 0) (Some (ConnectPromise 0 true)) 1
                  [EvNewClient 0 url0 defaultOptions; EvConnect 0])
       = (Ok (mkDb 0 dbName),
          mkState (Some 0) (Some (ConnectPromise 0 true)) 1
                  [EvNewClient 0 url0 defaultOptions; EvConnect 0]))).
Proof.
  split.
  - vm_compute. reflexivity.
  - apply (connect_memoized MAX_RETRIES_src RETRY_DELAY_src B_up url0 defaultOptions
             init_state). vm_compute. reflexivity.
Defined.

(** C4 (as the code has it): [closeDatabase] is a no-op when [client] is
    unset; otherwise it awaits [client.close()]. When that fulfils, [client]
    and [clientPromise] are cleared and a second call is a no-op; when it
    rejects, the rejection reaches the caller and [client] and
    [clientPromise] keep their values. *)
Theorem closeDatabase_behaviour (B : Backend) (s : State) :
  (client s = None -> closeDatabase B s = (Ok tt, s)) /\
  (forall c, client s = Some c -> close_ok B c = true ->
     closeDatabase B s
       = (Ok tt, mkState None None (next_client s) (trace s ++ [EvClientClose c])) /\
     closeDatabase B (snd (closeDatabase B s)) = (Ok tt, snd (closeDatabase B s))) /\
  (forall c, client s = Some c -> close_ok B c = false ->
     closeDatabase B s
       = (Throw (ErrClose c),
          mkState (Some c) (clientPromise s) (next_client s) (trace s ++ [EvClientClose c]))).
Proof.
  unfold closeDatabase. split; [|split].
  - intros Hc. munfold. rewrite Hc. reflexivity.
  - intros c Hc Hok. munfold. rewrite Hc. cbn. rewrite Hok. cbn. split; reflexivity.
  - intros c Hc Hko. munfold. rewrite Hc. cbn. rewrite Hko. cbn. rewrite Hc. reflexivity.
Qed.

(** C4: a connected client whose [client.close()] rejects: the rejection
    escapes [closeDatabase] and [client], [clientPromise] stay set. *)
Lemma closeDatabase_rejection_escapes :
  closeDatabase B_close_fails
    (mkState (Some 0) (Some (ConnectPromise 0 true)) 1
             [EvNewClient 0 url0 defaultOptions; EvConnect 0])
  = (Throw (ErrClose 0),
     mkState (Some 0) (Some (ConnectPromise 0 true)) 1
             [EvNewClient 0 url0 defaultOptions; EvConnect 0; EvClientClose 0]).
Proof. reflexivity. Qed.

(** C6: [getCollection] never fulfils with a collection whose [error] is
    set, and when the connection succeeds and the backend marks the
    collection with error [e], it rejects with [e]. *)
Theorem getCollection_lookup_error (MAX_RETRIES RETRY_DELAY : nat) (B : Backend)
    url options dbName collectionName s :
  (forall col s',
     getCollection MAX_RETRIES RETRY_DELAY B url options dbName collectionName s
       = (Ok col, s') -> error col = None) /\
  (forall c s1 e,
     (v <- connectToDatabase MAX_RETRIES RETRY_DELAY B url options 0 ;; await_value v) s
       = (Ok (Some c), s1) ->
     coll_error B dbName collectionName = Some e ->
     getCollection MAX_RETRIES RETRY_DELAY B url options dbName collectionName s
       = (Throw (ErrLookup e), s1)).
Proof.
  unfold getCollection, bind. split.
  - intros col s'.
    destruct (connectToDatabase MAX_RETRIES RETRY_DELAY B url options 0 s)
      as [[v|e] s0]; [|discriminate].
    destruct v as [[c [|]]|]; cbn; try discriminate.
    destruct (coll_error B dbName collectionName) eqn:E; intros H; inversion H; subst.
    cbn. exact E.
  - intros c s1 e H He.
    destruct (connectToDatabase MAX_RETRIES RETRY_DELAY B url options 0 s)
      as [[v|e'] s0]; [|discriminate].
    destruct v as [[c' [|]]|]; cbn in H |- *; inversion H; subst.
    cbn. rewrite He. reflexivity.
Qed.

Lemma getCollection_lookup_error_witness :
  getCollection MAX_RETRIES_src RETRY_DELAY_src B_missing url0 defaultOptions
    "test" "missing" init_state
  = (Throw (ErrLookup "ns not found"),
     mkState (Some 0) (Some (ConnectPromise 0 true)) 1
             [EvNewClient 0 url0 defaultOptions; EvConnect 0]).
Proof.
  apply (proj2 (getCollection_lookup_error MAX_RETRIES_src RETRY_DELAY_src B_missing
                  url0 defaultOptions "test" "missing" init_state) 0);
    vm_compute; reflexivity.
Defined.

(** C7 (as the code has it): after any sequence of exported operations,
    each run to completion from the initial state, [clientPromise] is either
    unset or the fulfilled connect promise of the current [client]; and a
    [connectToDatabase] call from such a state that rejects with
    'Failed to connect ...' leaves [client] set to the last client it
    created while [clientPromise] is unset. *)
Theorem state_inv_reachable (MAX_RETRIES RETRY_DELAY : nat) (B : Backend) os :
  state_inv (run_ops MAX_RETRIES RETRY_DELAY B os init_state) /\
  (forall url options s',
     connectToDatabase MAX_RETRIES RETRY_DELAY B url options 0
       (run_ops MAX_RETRIES RETRY_DELAY B os init_state)
       = (Throw ErrFailedToConnect, s') ->
     client s' = Some (pred (next_client s')) /\ clientPromise s' = None).
Proof.
  assert (Hinv : state_inv (run_ops MAX_RETRIES RETRY_DELAY B os init_state))
    by (apply run_ops_inv; left; reflexivity).
  split; [exact Hinv|].
  intros url options s' H. exact (connect_fuel_rejected _ _ _ _ _ _ _ _ _ Hinv H).
Qed.

Lemma state_inv_reachable_witness :
  connectToDatabase MAX_RETRIES_src RETRY_DELAY_src B_down url0 defaultOptions 0
    (run_ops MAX_RETRIES_src RETRY_DELAY_src B_down [OpConnect url0 defaultOptions]
       init_state)
  = (Throw ErrFailedToConnect,
     snd (connectToDatabase MAX_RETRIES_src RETRY_DELAY_src B_down url0 defaultOptions 0
            (run_ops MAX_RETRIES_src RETRY_DELAY_src B_down [OpConnect url0 defaultOptions]
               init_state))) /\
  client (snd (connectToDatabase MAX_RETRIES_src RETRY_DELAY_src B_down url0
                 defaultOptions 0
                 (run_ops MAX_RETRIES_src RETRY_DELAY_src B_down
                    [OpConnect url0 defaultOptions] init_state)))
  = Some (pred (next_client
       (snd (connectToDatabase MAX_RETRIES_src RETRY_DELAY_src B_down url0
               defaultOptions 0
               (run_ops MAX_RETRIES_src RETRY_DELAY_src B_down
                  [OpConnect url0 defaultOptions] init_state))))) /\
  clientPromise (snd (connectToDatabase MAX_RETRIES_src RETRY_DELAY_src B_down url0
                        defaultOptions 0
                        (run_ops MAX_RETRIES_src RETRY_DELAY_src B_down
                           [OpConnect url0 defaultOptions] init_state))) = None.
Proof.
  assert (H : connectToDatabase MAX_RETRIES_src RETRY_DELAY_src B_down url0 defaultOptions 0
                (run_ops MAX_RETRIES_src RETRY_DELAY_src B_down
                   [OpConnect url0 defaultOptions] init_state)
              = (Throw ErrFailedToConnect,
                 snd (connectToDatabase MAX_RETRIES_src RETRY_DELAY_src B_down url0
                        defaultOptions 0
                        (run_ops MAX_RETRIES_src RETRY_DELAY_src B_down
                           [OpConnect url0 defaultOptions] init_state))))
    by (vm_compute; reflexivity).
  split; [exact H|].
  exact (proj2 (state_inv_reachable MAX_RETRIES_src RETRY_DELAY_src B_down
                  [OpConnect url0 defaultOptions]) _ _ _ H).
Defined.

(** C7: one successful [connectToDatabase] sets both [client] and
    [clientPromise]. *)
Lemma connected_sets_both :
  client (run_ops MAX_RETRIES_src RETRY_DELAY_src B_up [OpConnect url0 defaultOptions]
            init_state) = Some 0 /\
  clientPromise (run_ops MAX_RETRIES_src RETRY_DELAY_src B_up
                   [OpConnect url0 defaultOptions] init_state)
    = Some (ConnectPromise 0 true).
Proof. vm_compute. split; reflexivity. Qed.

(** C8: [init(url)] without [maxPoolSize] defines [maxPoolSize: undefined]
    over the default 10, and the first [new MongoClient] it makes receives
    those options; a given [maxPoolSize] is used as is. *)
Theorem init_maxPoolSize_omitted (MAX_RETRIES RETRY_DELAY : nat) (B : Backend) url :
  obj_get "maxPoolSize" (init_options JUndefined) = Some JUndefined /\
  (forall n, obj_get "maxPoolSize" (init_options (JNum n)) = Some (JNum n)) /\
  hd_error (trace (snd (api_initializeDatabase
                          (init MAX_RETRIES RETRY_DELAY B url JUndefined) init_state)))
    = Some (EvNewClient 0 url (init_options JUndefined)).
Proof.
  split; [reflexivity|]. split; [intros n; reflexivity|].
  cbn [init api_initializeDatabase]. rewrite initializeDatabase_state.
  unfold connectToDatabase.
  destruct (connect_fuel_first_event MAX_RETRIES RETRY_DELAY B (MAX_RETRIES - 0) url
              (init_options JUndefined) 0 init_state eq_refl) as [evs Hevs].
  rewrite Hevs. reflexivity.
Qed.

(** C9: the retry budget belongs to one call: after a call that exhausted
    its retries, a later call against the same always-rejecting backend
    again makes [MAX_RETRIES + 1] attempts before rejecting. *)
Theorem retries_fresh_per_call (MAX_RETRIES RETRY_DELAY : nat) (B : Backend)
    url options url' options' s0 :
  (forall c, connect_ok B c = false) ->
  clientPromise s0 = None ->
  let s1 := snd (connectToDatabase MAX_RETRIES RETRY_DELAY B url options 0 s0) in
  fst (connectToDatabase MAX_RETRIES RETRY_DELAY B url' options' 0 s1)
    = Throw ErrFailedToConnect /\
  trace (snd (connectToDatabase MAX_RETRIES RETRY_DELAY B url' options' 0 s1))
    = trace s1 ++ failing_attempts RETRY_DELAY url' options' (next_client s1) MAX_RETRIES /\
  count_connects (failing_attempts RETRY_DELAY url' options' (next_client s1) MAX_RETRIES)
    = S MAX_RETRIES.
Proof.
  intros Hfail Hs s1.
  assert (Hs1 : clientPromise s1 = None).
  { unfold s1, connectToDatabase.
    rewrite (connect_fuel_failing MAX_RETRIES RETRY_DELAY B url options Hfail)
      by (auto; lia). reflexivity. }
  unfold connectToDatabase at 1 2.
  rewrite (connect_fuel_failing MAX_RETRIES RETRY_DELAY B url' options' Hfail)
    by (auto; lia).
  rewrite Nat.sub_0_r. cbn.
  split; [reflexivity|]. split; [reflexivity|]. apply failing_attempts_connects.
Qed.

Lemma retries_fresh_per_call_witness :
  ((forall c, connect_ok B_down c = false) /\ clientPromise init_state = None) /\
  (let s1 := snd (connectToDatabase MAX_RETRIES_src RETRY_DELAY_src B_down url0
                    defaultOptions 0 init_state) in
   fst (connectToDatabase MAX_RETRIES_src RETRY_DELAY_src B_down url0 defaultOptions 0 s1)
     = Throw ErrFailedToConnect /\
   trace (snd (connectToDatabase MAX_RETRIES_src RETRY_DELAY_src B_down url0
                 defaultOptions 0 s1))
     = trace s1 ++ failing_attempts RETRY_DELAY_src url0 defaultOptions (next_client s1)
                     MAX_RETRIES_src /\
   count_connects (failing_attempts RETRY_DELAY_src url0 defaultOptions (next_client s1)
                     MAX_RETRIES_src) = S MAX_RETRIES_src).
Proof.
  split.
  - split; [intros c; reflexivity | reflexivity].
  - apply retries_fresh_per_call; [intros c; reflexivity | reflexivity].
Defined.

(** C10: while [clientPromise] is set, [connectToDatabase] returns it
    whatever url, options and retry count it is given, and [getDatabase]
    with any url and options answers from the memoized client. *)
Theorem connect_ignores_arguments (MAX_RETRIES RETRY_DELAY : nat) (B : Backend) s p :
  clientPromise s = Some p ->
  (forall url options retries,
     connectToDatabase MAX_RETRIES RETRY_DELAY B url options retries s = (Ok (Some p), s)) /\
  (forall c, p = ConnectPromise c true ->
   forall url options dbName,
     getDatabase MAX_RETRIES RETRY_DELAY B url options dbName s = (Ok (mkDb c dbName), s)).
Proof.
  intros Hp. split.
  - intros url options retries. unfold connectToDatabase.
    apply connect_fuel_memo. exact Hp.
  - intros c -> url options dbName.
    unfold getDatabase, bind at 1, connectToDatabase.
    rewrite (connect_fuel_memo MAX_RETRIES RETRY_DELAY B _ _ _ _ _ _ Hp).
    reflexivity.
Qed.

Lemma connect_ignores_arguments_witness :
  clientPromise (mkState (Some 0) (Some (ConnectPromise 0 true)) 1
                         [EvNewClient 0 url0 defaultOptions; EvConnect 0])
    = Some (ConnectPromise 0 true) /\
  getDatabase MAX_RETRIES_src RETRY_DELAY_src B_up url1 (init_options (JNum 50)) "other"
    (mkState (Some 0) (Some (ConnectPromise 0 true)) 1
             [EvNewClient 0 url0 defaultOptions; EvConnect 0])
  = (Ok (mkDb 0 "other"),
     mkState (Some 0) (Some (ConnectPromise 0 true)) 1
             [EvNewClient 0 url0 defaultOptions; EvConnect 0]).
Proof.
  split; [reflexivity|].
  apply (proj2 (connect_ignores_arguments MAX_RETRIES_src RETRY_DELAY_src B_up
                  (mkState (Some 0) (Some (ConnectPromise 0 true)) 1
                           [EvNewClient 0 url0 defaultOptions; EvConnect 0])
                  (ConnectPromise 0 true) eq_refl) 0 eq_refl).
Defined.

(** C5: SIGTERM then SIGINT after [setupGracefulShutdown(server)] call
    [server.close] twice and register the close-then-exit callback twice. *)
Lemma two_signals_close_server_twice :
  server_close_calls (deliver_all [SIGTERM; SIGINT] (setupGracefulShutdown 0 init_host))
    = [0; 0] /\
  close_callbacks (deliver_all [SIGTERM; SIGINT] (setupGracefulShutdown 0 init_host))
    = [(0, CloseDbThenExit); (0, CloseDbThenExit)].
Proof. split; reflexivity. Qed.

(** C5 (as the code has it): with no earlier listeners, each SIGTERM or
    SIGINT delivered after [setupGracefulShutdown(server)] calls
    [server.close(cb)] once more, so [n] signals give [n] calls and [n]
    registered callbacks; a callback run before the process exited, whose
    [closeDatabase] fulfils, ends in [process.exit(0)]. *)
Theorem shutdown_per_signal server sigs h :
  listeners h = [] ->
  exit_code h = None ->
  let h' := deliver_all sigs (setupGracefulShutdown server h) in
  server_close_calls h' = server_close_calls h ++ repeat server (List.length sigs) /\
  close_callbacks h'
    = close_callbacks h ++ repeat (server, CloseDbThenExit) (List.length sigs) /\
  (forall B, fst (closeDatabase B (db h)) = Ok tt ->
     exit_code (run_callback B CloseDbThenExit h') = Some 0).
Proof.
  intros Hl He h'.
  destruct (deliver_all_registered server sigs (setupGracefulShutdown server h))
    as [H1 [H2 [H3 H4]]]; [cbn; rewrite Hl; reflexivity | exact He |].
  split; [exact H3|]. split; [exact H4|].
  intros B HB. unfold run_callback, h'. rewrite H2, H1. cbn [db setupGracefulShutdown].
  destruct (closeDatabase B (db h)) as [[u|e] s']; cbn in HB; [reflexivity|discriminate].
Qed.

Lemma shutdown_per_signal_witness :
  (listeners init_host = [] /\ exit_code init_host = None) /\
  (let h' := deliver_all [SIGTERM; SIGINT] (setupGracefulShutdown 0 init_host) in
   server_close_calls h' = server_close_calls init_host ++ repeat 0 2 /\
   close_callbacks h' = close_callbacks init_host ++ repeat (0, CloseDbThenExit) 2 /\
   (forall B, fst (closeDatabase B (db init_host)) = Ok tt ->
      exit_code (run_callback B CloseDbThenExit h') = Some 0)).
Proof.
  split; [split; reflexivity|].
  apply (shutdown_per_signal 0 [SIGTERM; SIGINT] init_host); reflexivity.
Defined.

End SeqFacts.

Module ConcFacts.
Import Conc.

Lemma In_replace_nth {A} i (x y : A) l :
  In y (replace_nth i x l) -> y = x \/ In y l.
Proof.
  revert i. induction l as [|z l IH]; intros [|i]; cbn.
  - intros [].
  - intros [].
  - intros [H|H]; [left; congruence | right; right; exact H].
  - intros [H|H]; [right; left; exact H|].
    destruct (IH i H) as [->|H']; [left; reflexivity | right; right; exact H'].
Qed.

Lemma Forall_replace_nth {A} (P : A -> Prop) i x l :
  Forall P l -> P x -> Forall P (replace_nth i x l).
Proof.
  intros Hl Hx. revert i. induction Hl as [|z l Hz Hl IH]; intros [|i]; cbn;
    constructor; auto.
Qed.

Lemma count_replace_nth i t t' ts :
  nth_error ts i = Some t ->
  count_awaiting (replace_nth i t' ts) + (if is_awaiting t then 1 else 0)
  = count_awaiting ts + (if is_awaiting t' then 1 else 0).
Proof.
  unfold count_awaiting. revert i. induction ts as [|z ts IH]; intros [|i] H;
    cbn in H; try discriminate.
  - inversion H; subst. cbn.
    destruct (is_awaiting t), (is_awaiting t'); cbn; lia.
  - cbn. specialize (IH i H). destruct (is_awaiting z); cbn; lia.
Qed.

Lemma count_awaiting_zero ts :
  count_awaiting ts = 0 -> forall t, In t ts -> awaiting t = None.
Proof.
  unfold count_awaiting. induction ts as [|z ts IH]; intros H t Ht; [destruct Ht|].
  cbn in H. unfold is_awaiting in H at 1.
  destruct (awaiting z) eqn:Ez; [discriminate|].
  destruct Ht as [<-|Ht]; [exact Ez | exact (IH H t Ht)].
Qed.

Lemma count_awaiting_none ts :
  (forall t, In t ts -> awaiting t = None) -> count_awaiting ts = 0.
Proof.
  unfold count_awaiting. induction ts as [|z ts IH]; intros H; [reflexivity|].
  cbn. unfold is_awaiting at 1. rewrite (H z (or_introl eq_refl)).
  apply IH. intros t Ht. apply H. right. exact Ht.
Qed.

Lemma settled_of_app c l d b :
  settled_of c (l ++ [(d, b)])
  = match settled_of c l with
    | Some x => Some x
    | None => if Nat.eqb c d then Some b else None
    end.
Proof.
  induction l as [|[q x] l IH]; cbn; [reflexivity|].
  destruct (Nat.eqb c q); [reflexivity|exact IH].
Qed.

(** Replacing a task by one that is neither suspended at line 21 nor a
    close task, leaving the globals alone, keeps the invariant. *)
Lemma conn_inv_replace w i t t' :
  conn_inv w ->
  nth_error (tasks w) i = Some t ->
  awaiting t' = None -> is_close_task t' = false ->
  conn_inv (with_tasks w (replace_nth i t' (tasks w))).
Proof.
  intros [I1 [I2 [I3 [I4 I5]]]] Hi Ha Hc.
  unfold conn_inv, with_tasks; cbn [tasks clientPromise settled next_client].
  split; [exact I1|]. split; [|split; [|split; [exact I4|]]].
  - intros x p Hx Hp. destruct (In_replace_nth _ _ _ _ Hx) as [->|Hx'].
    + congruence.
    + exact (I2 x p Hx' Hp).
  - pose proof (count_replace_nth i t t' (tasks w) Hi) as E.
    assert (Hn : is_awaiting t' = false) by (unfold is_awaiting; rewrite Ha; reflexivity).
    rewrite Hn in E. destruct (is_awaiting t); lia.
  - apply Forall_replace_nth; assumption.
Qed.

(** The catch of lines 22-32, run by the task that created [p]. *)
Lemma conn_inv_catch w i r p t' :
  conn_inv w ->
  nth_error (tasks w) i = Some (TAwaitConnect r p) ->
  settled_of p (settled w) = Some false ->
  awaiting t' = None -> is_close_task t' = false ->
  conn_inv (with_tasks (mkWorld (client w) None (settled w) (next_client w) (connects w)
                                (tasks w))
                       (replace_nth i t' (tasks w))).
Proof.
  intros [I1 [I2 [I3 [I4 I5]]]] Hi Hp Ha Hc.
  assert (Hcp : clientPromise w = Some p)
    by exact (I2 _ p (nth_error_In _ _ Hi) eq_refl).
  assert (Hzero : count_awaiting (replace_nth i t' (tasks w)) = 0).
  { pose proof (count_replace_nth i _ t' (tasks w) Hi) as E.
    assert (Hn : is_awaiting t' = false) by (unfold is_awaiting; rewrite Ha; reflexivity).
    rewrite Hn in E. cbn in E. lia. }
  unfold conn_inv, with_tasks; cbn [tasks clientPromise settled next_client].
  split; [|split; [|split; [|split]]].
  - intros c Hc' Hn. rewrite (I1 c Hc' Hn) in Hcp. inversion Hcp; subst. congruence.
  - intros x q Hx Hq. rewrite (count_awaiting_zero _ Hzero x Hx) in Hq. discriminate.
  - lia.
  - exact I4.
  - apply Forall_replace_nth; assumption.
Qed.

Lemma conn_inv_step MAX_RETRIES ch w w' :
  conn_inv w -> ch <> SpawnClose -> step MAX_RETRIES ch w = Some w' -> conn_inv w'.
Proof.
  intros Hinv Hch Hs. pose proof Hinv as [I1 [I2 [I3 [I4 I5]]]].
  destruct ch as [| |c ok|i ok]; cbn [step] in Hs.
  - inversion Hs; subst.
    unfold conn_inv, with_tasks; cbn [tasks clientPromise settled next_client].
    split; [exact I1|]. split; [|split; [|split; [exact I4|]]].
    + intros t p Ht Hp. apply in_app_or in Ht. destruct Ht as [Ht|[<-|[]]].
      * exact (I2 t p Ht Hp).
      * discriminate.
    + unfold count_awaiting in *. rewrite filter_app, length_app. cbn. lia.
    + apply Forall_app. split; [exact I5|]. repeat constructor.
  - contradiction.
  - destruct ((c <? next_client w) &&
              match settled_of c (settled w) with None => true | Some _ => false end)
      eqn:E; [|discriminate].
    inversion Hs; subst. apply andb_prop in E as [E1 E2]. apply Nat.ltb_lt in E1.
    unfold conn_inv; cbn [tasks clientPromise settled next_client].
    split; [|split; [exact I2|split; [exact I3|split; [|exact I5]]]].
    + intros c' Hc' Hn. rewrite settled_of_app in Hn.
      destruct (settled_of c' (settled w)) eqn:E'; [discriminate|].
      exact (I1 c' Hc' E').
    + intros c' Hc'. rewrite settled_of_app, (I4 c' Hc').
      destruct (Nat.eqb_spec c' c); [lia|reflexivity].
  - destruct (nth_error (tasks w) i) as [t|] eqn:Hi; [|discriminate].
    destruct (run_task MAX_RETRIES t ok w) as [[t' w0]|] eqn:Ht; [|discriminate].
    inversion Hs; subst.
    assert (Hin : In t (tasks w)) by exact (nth_error_In _ _ Hi).
    destruct t as [r|r p|r|[p|]| |c|res]; cbn [run_task] in Ht.
    + destruct (clientPromise w) as [p|] eqn:Hcp.
      * inversion Ht; subst t' w0. apply (conn_inv_replace w i _ _ Hinv Hi); reflexivity.
      * inversion Ht; subst t' w0.
        unfold conn_inv, with_tasks; cbn [tasks clientPromise settled next_client].
        split; [|split; [|split; [|split]]].
        -- intros c' Hc' Hn. destruct (Nat.eq_dec c' (next_client w)) as [->|Hne].
           ++ reflexivity.
           ++ assert (Hlt : c' < next_client w) by lia.
              discriminate (I1 c' Hlt Hn).
        -- intros x q Hx Hq. destruct (In_replace_nth _ _ _ _ Hx) as [->|Hx'].
           ++ cbn in Hq. inversion Hq. reflexivity.
           ++ discriminate (I2 x q Hx' Hq).
        -- pose proof (count_replace_nth i _ (TAwaitConnect r (next_client w))
                         (tasks w) Hi) as E.
           assert (H0 : count_awaiting (tasks w) = 0).
           { apply count_awaiting_none. intros x Hx.
             destruct (awaiting x) as [q|] eqn:Hq; [|reflexivity].
             discriminate (I2 x q Hx Hq). }
           cbn in E. lia.
        -- intros c' Hc'. apply I4. lia.
        -- apply Forall_replace_nth; [exact I5 | reflexivity].
    + destruct (settled_of p (settled w)) as [[|]|] eqn:Hp; [| |discriminate].
      * inversion Ht; subst t' w0. apply (conn_inv_replace w i _ _ Hinv Hi); reflexivity.
      * destruct (r <? MAX_RETRIES); inversion Ht; subst t' w0;
          apply (conn_inv_catch w i r p _ Hinv Hi Hp); reflexivity.
    + inversion Ht; subst t' w0. apply (conn_inv_replace w i _ _ Hinv Hi); reflexivity.
    + destruct (settled_of p (settled w)) as [[|]|]; [| |discriminate];
        inversion Ht; subst t' w0; apply (conn_inv_replace w i _ _ Hinv Hi); reflexivity.
    + inversion Ht; subst t' w0. apply (conn_inv_replace w i _ _ Hinv Hi); reflexivity.
    + rewrite Forall_forall in I5. specialize (I5 _ Hin). discriminate.
    + rewrite Forall_forall in I5. specialize (I5 _ Hin). discriminate.
    + discriminate.
Qed.

Lemma conn_inv_run MAX_RETRIES chs : forall w w',
  conn_inv w -> ~ In SpawnClose chs -> run MAX_RETRIES chs w = Some w' -> conn_inv w'.
Proof.
  induction chs as [|ch chs IH]; intros w w' Hinv Hno Hrun; cbn in Hrun.
  - inversion Hrun; subst. exact Hinv.
  - destruct (step MAX_RETRIES ch w) as [w1|] eqn:Hs; [|discriminate].
    apply (IH w1 w'); [| intros H; apply Hno; right; exact H | exact Hrun].
    apply (conn_inv_step MAX_RETRIES ch w w1 Hinv); [|exact Hs].
    intros ->. apply Hno. left. reflexivity.
Qed.

Lemma conn_inv_init : conn_inv init_world.
Proof.
  unfold conn_inv. cbn. split; [intros c Hc; lia|].
  split; [intros t p []|]. split; [lia|]. split; [reflexivity|constructor].
Qed.

(** ** Claims *)

(** C3: two callers start [connectToDatabase] before any connection
    exists; the first attempt rejects. The caller that started it retries and
    gets client 1 from a second [client.connect()], while the caller that
    joined the first attempt rejects with that attempt's error. *)
Lemma concurrent_callers_diverge :
  run Seq.MAX_RETRIES_src two_callers_first_attempt_fails init_world
  = Some (mkWorld (Some 1) (Some 1) [(0, false); (1, true)] 2 [0; 1]
                  [TDone (RClient 1); TDone (RError (ErrConnect 0))]).
Proof. vm_compute. reflexivity. Qed.

(** C3 (as the code has it): in any interleaving without [closeDatabase],
    every unsettled connect promise is the current [clientPromise], so at
    most one connect attempt is pending at a time. A call that starts while
    [clientPromise] is set makes no new connect and adopts that promise,
    and each caller adopting a settled promise [p] gets client [p] if it
    fulfilled and [p]'s rejection otherwise. *)
Theorem single_pending_connect MAX_RETRIES chs w :
  ~ In SpawnClose chs ->
  run MAX_RETRIES chs init_world = Some w ->
  (forall c, c < next_client w -> settled_of c (settled w) = None ->
             clientPromise w = Some c) /\
  (forall i r p ok,
     nth_error (tasks w) i = Some (TCall r) -> clientPromise w = Some p ->
     step MAX_RETRIES (Run i ok) w
       = Some (with_tasks w (replace_nth i (TAdopt (Some p)) (tasks w)))) /\
  (forall i p b ok,
     nth_error (tasks w) i = Some (TAdopt (Some p)) -> settled_of p (settled w) = Some b ->
     step MAX_RETRIES (Run i ok) w
       = Some (with_tasks w (replace_nth i
                 (TDone (if b then RClient p else RError (ErrConnect p))) (tasks w)))).
Proof.
  intros Hno Hrun.
  destruct (conn_inv_run MAX_RETRIES chs init_world w conn_inv_init Hno Hrun) as [I1 _].
  split; [exact I1|]. split.
  - intros i r p ok Hi Hp. cbn [step]. rewrite Hi. cbn [run_task]. rewrite Hp.
    reflexivity.
  - intros i p b ok Hi Hp. cbn [step]. rewrite Hi. cbn [run_task]. rewrite Hp.
    destruct b; reflexivity.
Qed.


Lemma single_pending_connect_witness :
  (~ In SpawnClose two_callers_pending /\
   run Seq.MAX_RETRIES_src two_callers_pending init_world
   = Some (mkWorld (Some 0) (Some 0) [] 1 [0] [TAwaitConnect 0 0; TCall 0])) /\
  step Seq.MAX_RETRIES_src (Run 1 true) (mkWorld (Some 0) (Some 0) [] 1 [0]
                                             [TAwaitConnect 0 0; TCall 0])
  = Some (with_tasks (mkWorld (Some 0) (Some 0) [] 1 [0] [TAwaitConnect 0 0; TCall 0])
            (replace_nth 1 (TAdopt (Some 0)) [TAwaitConnect 0 0; TCall 0])).
Proof.
  assert (Hno : ~ In SpawnClose two_callers_pending)
    by (intros [H|[H|[H|[]]]]; discriminate).
  assert (Hrun : run Seq.MAX_RETRIES_src two_callers_pending init_world
                 = Some (mkWorld (Some 0) (Some 0) [] 1 [0] [TAwaitConnect 0 0; TCall 0]))
    by (vm_compute; reflexivity).
  split; [split; [exact Hno | exact Hrun]|].
  exact (proj1 (proj2 (single_pending_connect Seq.MAX_RETRIES_src two_callers_pending _ Hno Hrun))
           1 0 0 true eq_refl eq_refl).
Defined.

End ConcFacts.

Module SeqExtra.
Import Seq SeqFacts.

#[local] Arguments Nat.ltb : simpl never.

Lemma count_connects_app a b :
  count_connects (a ++ b) = count_connects a + count_connects b.
Proof. unfold count_connects. rewrite filter_app, length_app. reflexivity. Qed.

Lemma total_delay_app a b : total_delay (a ++ b) = total_delay a + total_delay b.
Proof.
  induction a as [|ev a IH]; cbn; [reflexivity|].
  destruct ev; rewrite ?IH; lia.
Qed.

Section Extra.

Variable MAX_RETRIES : nat.
Variable RETRY_DELAY : nat.
Variable B : Backend.

Lemma connect_fuel_recovers url options : forall fuel retries s j,
  clientPromise s = None ->
  MAX_RETRIES - retries < fuel ->
  j <= MAX_RETRIES - retries ->
  (forall i, i < j -> connect_ok B (next_client s + i) = false) ->
  connect_ok B (next_client s + j) = true ->
  connectToDatabase_fuel MAX_RETRIES RETRY_DELAY B fuel url options retries s
  = (Ok (Some (ConnectPromise (next_client s + j) true)),
     mkState (Some (next_client s + j)) (Some (ConnectPromise (next_client s + j) true))
             (S (next_client s + j))
             (trace s ++ failing_attempts RETRY_DELAY url options (next_client s) j)).
Proof.
  intros fuel. induction fuel as [|fuel IH]; intros retries s j Hs Hlt Hj Hfail Hok.
  - lia.
  - munfold. rewrite Hs. destruct j as [|j].
    + rewrite Nat.add_0_r in Hok |- *. rewrite Hok. cbn.
      repeat rewrite <- app_assoc. reflexivity.
    + pose proof (Hfail 0 ltac:(lia)) as H0. rewrite Nat.add_0_r in H0.
      rewrite H0. cbn.
      assert (Hr : (retries <? MAX_RETRIES) = true) by (apply Nat.ltb_lt; lia).
      rewrite Hr. cbn.
      rewrite (IH (S retries) _ j); cbn;
        [| reflexivity | lia | lia
         | intros i Hi; replace (S (next_client s + i)) with (next_client s + S i) by lia;
           apply Hfail; lia
         | replace (S (next_client s + j)) with (next_client s + S j) by lia; exact Hok].
      replace (S (next_client s + j)) with (next_client s + S j) by lia.
      cbn. repeat rewrite <- app_assoc. reflexivity.
Qed.

Lemma connect_fuel_bounded url options : forall fuel retries s,
  exists evs,
    trace (snd (connectToDatabase_fuel MAX_RETRIES RETRY_DELAY B fuel url options
                                       retries s)) = trace s ++ evs /\
    count_connects evs <= S (MAX_RETRIES - retries) /\
    total_delay evs <= (MAX_RETRIES - retries) * RETRY_DELAY.
Proof.
  intros fuel. induction fuel as [|fuel IH]; intros retries s.
  - exists []. munfold. rewrite app_nil_r.
    split; [reflexivity | unfold count_connects; cbn; split; [lia | apply Nat.le_0_l]].
  - munfold. destruct (clientPromise s) as [p|].
    + exists []. rewrite app_nil_r.
      split; [reflexivity | unfold count_connects; cbn; split; [lia | apply Nat.le_0_l]].
    + destruct (connect_ok B (next_client s)); cbn.
      * exists [EvNewClient (next_client s) url options; EvConnect (next_client s)].
        repeat rewrite <- app_assoc. cbn.
        split; [reflexivity | unfold count_connects; cbn; split; [lia | apply Nat.le_0_l]].
      * destruct (retries <? MAX_RETRIES) eqn:Hr; cbn.
        -- apply Nat.ltb_lt in Hr.
           match goal with
           | |- context [connectToDatabase_fuel _ _ _ fuel url options ?r ?s'] =>
               destruct (IH r s') as [evs [Hevs [Hc Hd]]]; rewrite Hevs
           end.
           exists ([EvNewClient (next_client s) url options; EvConnect (next_client s);
                    EvDelay RETRY_DELAY] ++ evs).
           split; [cbn; repeat rewrite <- app_assoc; reflexivity|].
           rewrite count_connects_app, total_delay_app.
           unfold count_connects at 1. cbn [filter is_connect List.length total_delay].
           split; [lia|].
           replace (MAX_RETRIES - retries) with (S (MAX_RETRIES - S retries)) by lia.
           cbn [Nat.mul]. lia.
        -- exists [EvNewClient (next_client s) url options; EvConnect (next_client s)].
           repeat rewrite <- app_assoc. cbn.
        split; [reflexivity | unfold count_connects; cbn; split; [lia | apply Nat.le_0_l]].
Qed.

Lemma connect_fuel_outcome url options : forall fuel retries s,
  state_inv s ->
  MAX_RETRIES - retries < fuel ->
  let r := connectToDatabase_fuel MAX_RETRIES RETRY_DELAY B fuel url options retries s in
  (exists c, fst r = Ok (Some (ConnectPromise c true)) /\
             client (snd r) = Some c /\
             clientPromise (snd r) = Some (ConnectPromise c true)) \/
  (fst r = Throw ErrFailedToConnect /\ clientPromise (snd r) = None).
Proof.
  intros fuel. induction fuel as [|fuel IH]; intros retries s Hinv Hlt r; [lia|].
  subst r. munfold.
  destruct Hinv as [Hs|[c [Hc Hp]]].
  - rewrite Hs. destruct (connect_ok B (next_client s)); cbn.
    + left. exists (next_client s). auto.
    + destruct (retries <? MAX_RETRIES) eqn:Hr; cbn.
      * apply Nat.ltb_lt in Hr. apply IH; [left; reflexivity | lia].
      * right. auto.
  - rewrite Hp. left. exists c. cbn. rewrite Hp. auto.
Qed.

End Extra.

(** X1: against a backend whose first [j] attempts reject and the next one
    fulfils, with [j <= MAX_RETRIES], a top-level call fulfils with the
    [(j+1)]-th client after [j] failed attempts separated by delays, and
    memoizes it. *)
Theorem connect_recovers_after_failures (MAX_RETRIES RETRY_DELAY : nat) (B : Backend)
    url options s0 j :
  clientPromise s0 = None ->
  j <= MAX_RETRIES ->
  (forall i, i < j -> connect_ok B (next_client s0 + i) = false) ->
  connect_ok B (next_client s0 + j) = true ->
  connectToDatabase MAX_RETRIES RETRY_DELAY B url options 0 s0
  = (Ok (Some (ConnectPromise (next_client s0 + j) true)),
     mkState (Some (next_client s0 + j))
             (Some (ConnectPromise (next_client s0 + j) true))
             (S (next_client s0 + j))
             (trace s0 ++ failing_attempts RETRY_DELAY url options (next_client s0) j)).
Proof.
  intros Hs Hj Hfail Hok. unfold connectToDatabase.
  apply connect_fuel_recovers; auto; lia.
Qed.

Lemma connect_recovers_after_failures_witness :
  (clientPromise init_state = None /\ 2 <= MAX_RETRIES_src /\
   (forall i, i < 2 -> connect_ok B_flaky (next_client init_state + i) = false) /\
   connect_ok B_flaky (next_client init_state + 2) = true) /\
  connectToDatabase MAX_RETRIES_src RETRY_DELAY_src B_flaky url0 defaultOptions 0 init_state
  = (Ok (Some (ConnectPromise (next_client init_state + 2) true)),
     mkState (Some (next_client init_state + 2))
             (Some (ConnectPromise (next_client init_state + 2) true))
             (S (next_client init_state + 2))
             (trace init_state ++ failing_attempts RETRY_DELAY_src url0 defaultOptions
                                    (next_client init_state) 2)).
Proof.
  assert (Hf : forall i, i < 2 -> connect_ok B_flaky (next_client init_state + i) = false)
    by (intros [|[|i]] Hi; [reflexivity | reflexivity | lia]).
  split; [split; [reflexivity | split; [cbv; lia | split; [exact Hf | reflexivity]]]|].
  apply connect_recovers_after_failures; [reflexivity | cbv; lia | exact Hf | reflexivity].
Defined.

(** X2: whatever the backend answers and whatever the state, one top-level
    [connectToDatabase] call makes at most [MAX_RETRIES + 1] connect attempts
    and waits at most [MAX_RETRIES * RETRY_DELAY] in total. *)
Theorem connect_attempts_bounded (MAX_RETRIES RETRY_DELAY : nat) (B : Backend)
    url options s :
  exists evs,
    trace (snd (connectToDatabase MAX_RETRIES RETRY_DELAY B url options 0 s))
      = trace s ++ evs /\
    count_connects evs <= S MAX_RETRIES /\
    total_delay evs <= MAX_RETRIES * RETRY_DELAY.
Proof.
  unfold connectToDatabase.
  destruct (connect_fuel_bounded MAX_RETRIES RETRY_DELAY B url options
              (S (MAX_RETRIES - 0)) 0 s) as [evs H].
  exists evs. rewrite Nat.sub_0_r in *. exact H.
Qed.

(** X3: from any state reached between operations, a [connectToDatabase]
    call that fulfils does so with the fulfilled connect promise of the
    client it leaves in [client] and memoizes in [clientPromise]; a call
    that rejects leaves [clientPromise] null, and its rejection is never a
    rejection of [client.connect()]. *)
Theorem connect_outcome (MAX_RETRIES RETRY_DELAY : nat) (B : Backend) url options
    retries s :
  state_inv s ->
  let r := connectToDatabase MAX_RETRIES RETRY_DELAY B url options retries s in
  (forall v, fst r = Ok v ->
     exists c, v = Some (ConnectPromise c true) /\ client (snd r) = Some c /\
               clientPromise (snd r) = Some (ConnectPromise c true)) /\
  (forall e, fst r = Throw e ->
     clientPromise (snd r) = None /\ forall c, e <> ErrConnect c).
Proof.
  intros Hinv.
  pose proof (connect_fuel_outcome MAX_RETRIES RETRY_DELAY B url options
                (S (MAX_RETRIES - retries)) retries s Hinv ltac:(lia)) as H.
  unfold connectToDatabase. cbv zeta in H |- *.
  destruct H as [[c [Hr [Hc Hp]]]|[Hr Hp]]; rewrite Hr; split.
  - intros v Hv. injection Hv as <-. exists c. auto.
  - intros e He. discriminate.
  - intros v Hv. discriminate.
  - intros e He. injection He as <-. split; [exact Hp | intros c Hc; discriminate].
Qed.

Lemma connect_outcome_witness :
  state_inv init_state /\
  (let r := connectToDatabase MAX_RETRIES_src RETRY_DELAY_src B_flaky url0 defaultOptions 0
              init_state in
   (forall v, fst r = Ok v ->
      exists c, v = Some (ConnectPromise c true) /\ client (snd r) = Some c /\
                clientPromise (snd r) = Some (ConnectPromise c true)) /\
   (forall e, fst r = Throw e ->
      clientPromise (snd r) = None /\ forall c, e <> ErrConnect c)).
Proof.
  assert (Hinv : state_inv init_state) by (left; reflexivity).
  split; [exact Hinv|]. exact (connect_outcome _ _ _ _ _ _ _ Hinv).
Defined.

(** X4: from any state reached between operations, a [getDatabase] call
    that fulfils returns database [dbName] of the client left in [client];
    a rejection of [getDatabase] or [initializeDatabase] is never the
    TypeError of a null client nor a rejection of [client.connect()]. *)
Theorem getDatabase_initializeDatabase_outcome (MAX_RETRIES RETRY_DELAY : nat)
    (B : Backend) url options dbName s :
  state_inv s ->
  (forall d, fst (getDatabase MAX_RETRIES RETRY_DELAY B url options dbName s) = Ok d ->
     exists c, d = mkDb c dbName /\
               client (snd (getDatabase MAX_RETRIES RETRY_DELAY B url options dbName s))
               = Some c) /\
  (forall e, fst (getDatabase MAX_RETRIES RETRY_DELAY B url options dbName s) = Throw e ->
     e <> ErrNullClient /\ forall c, e <> ErrConnect c) /\
  (forall e, fst (initializeDatabase MAX_RETRIES RETRY_DELAY B url options s) = Throw e ->
     e <> ErrNullClient /\ forall c, e <> ErrConnect c).
Proof.
  intros Hinv.
  pose proof (connect_fuel_outcome MAX_RETRIES RETRY_DELAY B url options
                (S (MAX_RETRIES - 0)) 0 s Hinv ltac:(lia)) as H.
  cbv zeta in H.
  change (connectToDatabase_fuel MAX_RETRIES RETRY_DELAY B (S (MAX_RETRIES - 0)) url
            options 0 s)
    with (connectToDatabase MAX_RETRIES RETRY_DELAY B url options 0 s) in H.
  unfold getDatabase, initializeDatabase, bind.
  destruct (connectToDatabase MAX_RETRIES RETRY_DELAY B url options 0 s) as [o s'].
  cbn [fst snd] in H.
  destruct H as [[c [-> [Hc _]]]|[-> _]]; cbn.
  - split; [|split].
    + intros d Hd. injection Hd as <-. exists c. auto.
    + intros e He. discriminate.
    + intros e He. discriminate.
  - split; [|split].
    + intros d Hd. discriminate.
    + intros x Hx. injection Hx as <-.
      split; [discriminate | intros c Hc; discriminate].
    + intros x Hx. injection Hx as <-.
      split; [discriminate | intros c Hc; discriminate].
Qed.

Lemma getDatabase_initializeDatabase_outcome_witness :
  state_inv init_state /\
  ((forall d, fst (getDatabase MAX_RETRIES_src RETRY_DELAY_src B_down url0 defaultOptions
                     "app" init_state) = Ok d ->
      exists c, d = mkDb c "app" /\
                client (snd (getDatabase MAX_RETRIES_src RETRY_DELAY_src B_down url0
                               defaultOptions "app" init_state)) = Some c) /\
   (forall e, fst (getDatabase MAX_RETRIES_src RETRY_DELAY_src B_down url0 defaultOptions
                     "app" init_state) = Throw e ->
      e <> ErrNullClient /\ forall c, e <> ErrConnect c) /\
   (forall e, fst (initializeDatabase MAX_RETRIES_src RETRY_DELAY_src B_down url0
                     defaultOptions init_state) = Throw e ->
      e <> ErrNullClient /\ forall c, e <> ErrConnect c)).
Proof.
  assert (Hinv : state_inv init_state) by (left; reflexivity).
  split; [exact Hinv|]. exact (getDatabase_initializeDatabase_outcome _ _ _ _ _ _ _ Hinv).
Defined.

(** X5: from any state reached between operations, a [getCollection] call
    that fulfils returns collection [collectionName] of database [dbName] of
    the client left in [client], with no error marker; a rejection of
    [getCollection] is never the TypeError of a null client nor a rejection
    of [client.connect()]. *)
Theorem getCollection_outcome (MAX_RETRIES RETRY_DELAY : nat) (B : Backend) url options
    dbName collectionName s :
  state_inv s ->
  (forall col, fst (getCollection MAX_RETRIES RETRY_DELAY B url options dbName
                      collectionName s) = Ok col ->
     exists c, col = mkCollection (mkDb c dbName) collectionName None /\
               client (snd (getCollection MAX_RETRIES RETRY_DELAY B url options dbName
                              collectionName s)) = Some c) /\
  (forall e, fst (getCollection MAX_RETRIES RETRY_DELAY B url options dbName
                    collectionName s) = Throw e ->
     e <> ErrNullClient /\ forall c, e <> ErrConnect c).
Proof.
  intros Hinv.
  pose proof (connect_fuel_outcome MAX_RETRIES RETRY_DELAY B url options
                (S (MAX_RETRIES - 0)) 0 s Hinv ltac:(lia)) as H.
  cbv zeta in H.
  change (connectToDatabase_fuel MAX_RETRIES RETRY_DELAY B (S (MAX_RETRIES - 0)) url
            options 0 s)
    with (connectToDatabase MAX_RETRIES RETRY_DELAY B url options 0 s) in H.
  unfold getCollection, bind.
  destruct (connectToDatabase MAX_RETRIES RETRY_DELAY B url options 0 s) as [o s'].
  cbn [fst snd] in H.
  destruct H as [[c [-> [Hc _]]]|[-> _]]; cbn.
  - unfold throw, ret, db_collection, client_db.
    destruct (coll_error B dbName collectionName) as [e|] eqn:He; cbn; split.
    + intros col Hcol. discriminate.
    + intros x Hx. injection Hx as <-.
      split; [discriminate | intros c' Hc'; discriminate].
    + intros col Hcol. injection Hcol as <-. exists c. rewrite He. auto.
    + intros x Hx. discriminate.
  - split; [intros col Hcol; discriminate|].
    intros x Hx. injection Hx as <-.
    split; [discriminate | intros c Hc; discriminate].
Qed.

Lemma getCollection_outcome_witness :
  state_inv init_state /\
  ((forall col, fst (getCollection MAX_RETRIES_src RETRY_DELAY_src B_up url0 defaultOptions
                       "app" "users" init_state) = Ok col ->
      exists c, col = mkCollection (mkDb c "app") "users" None /\
                client (snd (getCollection MAX_RETRIES_src RETRY_DELAY_src B_up url0
                               defaultOptions "app" "users" init_state)) = Some c) /\
   (forall e, fst (getCollection MAX_RETRIES_src RETRY_DELAY_src B_up url0 defaultOptions
                     "app" "users" init_state) = Throw e ->
      e <> ErrNullClient /\ forall c, e <> ErrConnect c)).
Proof.
  assert (Hinv : state_inv init_state) by (left; reflexivity).
  split; [exact Hinv|]. exact (getCollection_outcome _ _ _ _ _ _ _ _ Hinv).
Defined.

(** X6: when a call exhausts its retries, [client] stays set to the last,
    never connected, [MongoClient] while [clientPromise] is null, and a
    following [closeDatabase] calls [client.close()] on that client. *)
Theorem exhausted_leaves_failed_client (MAX_RETRIES RETRY_DELAY : nat) (B : Backend)
    url options s0 :
  (forall c, connect_ok B c = false) ->
  clientPromise s0 = None ->
  let s1 := snd (connectToDatabase MAX_RETRIES RETRY_DELAY B url options 0 s0) in
  client s1 = Some (next_client s0 + MAX_RETRIES) /\
  clientPromise s1 = None /\
  trace (snd (closeDatabase B s1))
    = trace s1 ++ [EvClientClose (next_client s0 + MAX_RETRIES)].
Proof.
  intros Hfail Hs s1.
  assert (E : s1 = mkState (Some (next_client s0 + MAX_RETRIES)) None
                           (S (next_client s0 + MAX_RETRIES))
                           (trace s0 ++ failing_attempts RETRY_DELAY url options
                                          (next_client s0) MAX_RETRIES)).
  { unfold s1, connectToDatabase.
    rewrite (connect_fuel_failing MAX_RETRIES RETRY_DELAY B url options Hfail)
      by (auto; lia).
    rewrite Nat.sub_0_r. reflexivity. }
  rewrite E. split; [reflexivity|]. split; [reflexivity|].
  unfold closeDatabase. munfold.
  destruct (close_ok B (next_client s0 + MAX_RETRIES)); reflexivity.
Qed.

Lemma exhausted_leaves_failed_client_witness :
  ((forall c, connect_ok B_down c = false) /\ clientPromise init_state = None) /\
  (let s1 := snd (connectToDatabase MAX_RETRIES_src RETRY_DELAY_src B_down url0
                    defaultOptions 0 init_state) in
   client s1 = Some (next_client init_state + MAX_RETRIES_src) /\
   clientPromise s1 = None /\
   trace (snd (closeDatabase B_down s1))
     = trace s1 ++ [EvClientClose (next_client init_state + MAX_RETRIES_src)]).
Proof.
  split; [split; [intros c; reflexivity | reflexivity]|].
  apply exhausted_leaves_failed_client; [intros c; reflexivity | reflexivity].
Defined.

(** X7: a caller passing a third argument [retries >= MAX_RETRIES] to
    [connectToDatabase] gets a single attempt: against a rejecting backend
    it creates one client, connects once, does not wait, and rejects with
    'Failed to connect ...'. *)
Theorem connect_retries_argument_exhausted (MAX_RETRIES RETRY_DELAY : nat) (B : Backend)
    url options retries s0 :
  MAX_RETRIES <= retries ->
  connect_ok B (next_client s0) = false ->
  clientPromise s0 = None ->
  connectToDatabase MAX_RETRIES RETRY_DELAY B url options retries s0
  = (Throw ErrFailedToConnect,
     mkState (Some (next_client s0)) None (S (next_client s0))
             (trace s0 ++ [EvNewClient (next_client s0) url options;
                           EvConnect (next_client s0)])).
Proof.
  intros Hr Hfail Hs. unfold connectToDatabase.
  replace (MAX_RETRIES - retries) with 0 by lia.
  munfold. rewrite Hs, Hfail. cbn.
  assert (Hb : (retries <? MAX_RETRIES) = false) by (apply Nat.ltb_ge; lia).
  rewrite Hb. cbn. repeat rewrite <- app_assoc. reflexivity.
Qed.

Lemma connect_retries_argument_exhausted_witness :
  (MAX_RETRIES_src <= 7 /\ connect_ok B_down (next_client init_state) = false /\
   clientPromise init_state = None) /\
  connectToDatabase MAX_RETRIES_src RETRY_DELAY_src B_down url0 defaultOptions 7 init_state
  = (Throw ErrFailedToConnect,
     mkState (Some (next_client init_state)) None (S (next_client init_state))
             (trace init_state ++ [EvNewClient (next_client init_state) url0 defaultOptions;
                                   EvConnect (next_client init_state)])).
Proof.
  split; [split; [cbv; lia | split; reflexivity]|].
  apply connect_retries_argument_exhausted; [cbv; lia | reflexivity | reflexivity].
Defined.

End SeqExtra.

Module ConcExtra.
Import Conc ConcFacts.

#[local] Arguments Nat.ltb : simpl never.

Lemma run_task_world_inv MAX_RETRIES t ok w t' w' :
  world_inv w -> run_task MAX_RETRIES t ok w = Some (t', w') -> world_inv w'.
Proof.
  intros I1 H. unfold world_inv in *.
  destruct t as [r|r p|r|[p|]| |c|res]; cbn in H.
  - destruct (clientPromise w) as [p|] eqn:Ep; injection H as <- <-.
    + rewrite Ep. exact I1.
    + right. reflexivity.
  - destruct (settled_of p (settled w)) as [[|]|]; [| |discriminate].
    + injection H as <- <-. exact I1.
    + destruct (r <? MAX_RETRIES); injection H as <- <-; left; reflexivity.
  - injection H as <- <-. exact I1.
  - destruct (settled_of p (settled w)) as [[|]|]; [| |discriminate];
      injection H as <- <-; exact I1.
  - injection H as <- <-. exact I1.
  - destruct (client w) eqn:Ec; cbn in H; injection H as <- <-; rewrite ?Ec; exact I1.
  - destruct ok; cbn in H; injection H as <- <-; [left; reflexivity | exact I1].
  - discriminate.
Qed.

Lemma world_inv_step MAX_RETRIES ch w w' :
  world_inv w -> step MAX_RETRIES ch w = Some w' -> world_inv w'.
Proof.
  intros Hinv Hs.
  destruct ch as [| |c ok|i ok]; cbn [step] in Hs.
  - injection Hs as <-. exact Hinv.
  - injection Hs as <-. exact Hinv.
  - destruct (_ && _); [|discriminate]. injection Hs as <-. exact Hinv.
  - destruct (nth_error (tasks w) i) as [t|] eqn:Et; [|discriminate].
    destruct (run_task MAX_RETRIES t ok w) as [[t' w1]|] eqn:Er; [|discriminate].
    injection Hs as <-.
    exact (run_task_world_inv MAX_RETRIES t ok w t' w1 Hinv Er).
Qed.

Lemma world_inv_run MAX_RETRIES chs : forall w w',
  world_inv w -> run MAX_RETRIES chs w = Some w' -> world_inv w'.
Proof.
  induction chs as [|ch chs IH]; intros w w' Hinv Hrun; cbn in Hrun.
  - injection Hrun as <-. exact Hinv.
  - destruct (step MAX_RETRIES ch w) as [w1|] eqn:Hs; [|discriminate].
    exact (IH w1 w' (world_inv_step MAX_RETRIES ch w w1 Hinv Hs) Hrun).
Qed.

Lemma world_inv_init : world_inv init_world.
Proof. left. reflexivity. Qed.




(** X8: in every interleaving of connectToDatabase and closeDatabase calls,
    [clientPromise] is either null or the connect promise of the current
    [client]: a memoized promise always belongs to the client that
    closeDatabase would close. *)
Theorem clientPromise_of_client MAX_RETRIES chs w :
  run MAX_RETRIES chs init_world = Some w ->
  clientPromise w = None \/ clientPromise w = client w.
Proof.
  intros H. exact (world_inv_run MAX_RETRIES chs _ _ world_inv_init H).
Qed.

Lemma clientPromise_of_client_witness :
  run Seq.MAX_RETRIES_src connect_then_close init_world
  = Some (mkWorld None None [(0, false); (1, true)] 2 [0; 1]
                  [TDone (RClient 1); TDone (RError (ErrConnect 0)); TDone RUndefined]) /\
  (clientPromise (mkWorld None None [(0, false); (1, true)] 2 [0; 1]
                  [TDone (RClient 1); TDone (RError (ErrConnect 0)); TDone RUndefined]) = None \/
   clientPromise (mkWorld None None [(0, false); (1, true)] 2 [0; 1]
                  [TDone (RClient 1); TDone (RError (ErrConnect 0)); TDone RUndefined])
   = client (mkWorld None None [(0, false); (1, true)] 2 [0; 1]
                  [TDone (RClient 1); TDone (RError (ErrConnect 0)); TDone RUndefined])).
Proof.
  assert (H : run Seq.MAX_RETRIES_src connect_then_close init_world
              = Some (mkWorld None None [(0, false); (1, true)] 2 [0; 1]
                  [TDone (RClient 1); TDone (RError (ErrConnect 0)); TDone RUndefined]))
    by (vm_compute; reflexivity).
  split; [exact H|]. exact (clientPromise_of_client _ _ _ H).
Defined.



End ConcExtra.
